(** * OpSingleDateFormComponent: a shallow embedding and its properties

    Source: frontend/src/app/shared/components/datepicker/single-date-form/
            single-date-form.component.ts

    The component is a class whose methods mutate its own fields, call into
    injected collaborators and drive one calendar widget.  It is embedded as
    a state-and-exception monad over a [World]: the component's fields, the
    part of the collaborators' state the component reads, the store of live
    calendar widgets and a chronological log of the calls the component
    makes on the outside. *)

From Stdlib Require Import String List Bool Arith Lia.
From stdpp Require Import base option list gmap strings.

Open Scope string_scope.
Open Scope list_scope.
Open Scope nat_scope.

(** ** JavaScript values used by the component *)

(** A JavaScript exception. The only one the component can raise itself is
    the [TypeError] of a method call on [undefined]. *)
Inductive JsError : Type :=
| TypeError.

(** Result of running a method: it returns, or it throws. In both cases the
    effects performed so far stay in the world. *)
Inductive Outcome (A : Type) : Type :=
| Returned (a : A)
| Thrown (e : JsError).
Arguments Returned {A} a.
Arguments Thrown {A} e.

(** The value written by [changeset.setValue(key, value)]: a boolean for the
    two toggles, [string | null] for the date. *)
Inductive FieldValue : Type :=
| VBool (b : bool)
| VDate (d : option string).

(** [x || ''] on a [string | null]: [null] and [''] are both falsy. *)
Definition orEmpty (x : option string) : string :=
  match x with
  | Some s => s
  | None => ""
  end.

Section Component.

(** [Date] stands for JavaScript [Date] objects. *)
Context {Date : Type}.

(** The argument of [parseDate(date : Date | string)]. *)
Inductive DateArg : Type :=
| ArgDate (d : Date)
| ArgString (s : string).

(** [minimalDate?: Date | null]: the optional parameter of
    [initializeDatepicker], captured by the [onDayCreate] closure. *)
Inductive MinDate : Type :=
| MDUndefined
| MDNull
| MDDate (d : Date).

(** flatpickr's [DayElement]; the component reads only [dateObj]. *)
Record DayElement : Type := mkDayElement { dateObj : Date }.

(** The pure helpers the component imports but does not define
    ([date-modal.helpers], the timezone service, the weekdays service held by
    the widget and the scheduling service's day predicate).  They are
    parameters of the development.  A result of type [Date | ''] or
    [Date | undefined] is an [option Date]: the component only ever tests
    such a value for truthiness, where [''] and [undefined] agree. *)
Class Externals : Type := {
  validDate : string -> bool;
  parseDate : DateArg -> option Date;
  mappedDate : option string -> option string;
  formattedISODate : option Date -> string;
  isNonWorkingDay : Date -> bool;
  isDayDisabled : DayElement -> MinDate -> bool
}.

Context `{!Externals}.

(** ** The world *)

(** Modelled from the spec: the Change Tracking Collaborator (class
    [ResourceChangeset], not part of the sources) "accumulates pending field
    edits" and "exposes setValue(fieldName, value)"; it is the finite map of
    the pending edits. *)
Abbreviation Changeset := (gmap string FieldValue).

(** What a calendar widget currently displays: the initial date string it
    was constructed with, or the dates last pushed by [setDates]. *)
Inductive PickerDates : Type :=
| InitialDate (s : string)
| PushedDates (dates : option Date) (enforceDate : option Date).

(** A live [DatePicker]: its options, the [minimalDate] its [onDayCreate]
    closure captured, and its dates. *)
Record Picker : Type := mkPicker {
  pk_showMonths : nat;
  pk_minimalDate : MinDate;
  pk_dates : PickerDates
}.

(** Calls the component makes on the outside, in chronological order. *)
Inductive Effect : Type :=
| RelationsSetChangeset (cs : option Changeset)
| SchedulingSetChangeset (cs : option Changeset)
| SubscribedMinimalDate
| SubscribedManualChanges
| PreventDefault
| SetValue (key : string) (v : FieldValue)
| SavedOrCancelled
| DetectChanges
| PickerDestroyed (id : nat)
| PickerCreated (id : nat) (initial : string) (showMonths : nat) (minimalDate : MinDate)
| SetDatesCalled (dates : option Date) (instance : option nat) (enforceDate : option Date)
| TimerArmed (delay : nat)
| TimerElapsed (delay : nat)
| MarkerClassAdded (id : nat)
| Repositioned
| DayCreated (dayElem : DayElement) (ignoreNonWorking : bool)
    (nonWorking : option bool) (minimalDate : MinDate) (disabled : bool).

(** The fields of the class. [changeset] and [datePickerInstance] are
    declared without initializer: they hold [undefined] ([None]) until
    something assigns them. *)
Record Fields : Type := mkFields {
  value : string;
  scheduleManually : bool;
  ignoreNonWorkingDays : bool;
  htmlId : string;
  date : option string;
  debounceDelay : nat;
  changeset : option Changeset;
  datePickerInstance : option nat
}.

(** What the component reads from its surroundings: the scheduling
    service's [isSchedulable] getter, the device service's [isMobile] and
    [now], the value of [new Date()]. *)
Record Env : Type := mkEnv {
  isSchedulable : bool;
  isMobile : bool;
  now : Date
}.

Record World : Type := mkWorld {
  this : Fields;
  env : Env;
  viewInitialized : bool;
  pendingTimer : option nat;
  pickers : gmap nat Picker;
  nextPicker : nat;
  log : list Effect
}.

(** ** The monad *)

Definition M (A : Type) : Type := World -> Outcome A * World.

#[local] Instance M_ret : MRet M := fun A a w => (Returned a, w).

#[local] Instance M_bind : MBind M := fun A B f m w =>
  match m w with
  | (Returned a, w') => f a w'
  | (Thrown e, w') => (Thrown e, w')
  end.

Definition throw {A : Type} (e : JsError) : M A := fun w => (Thrown e, w).

Definition get : M World := fun w => (Returned w, w).

Definition modify (f : World -> World) : M unit := fun w => (Returned tt, f w).

Definition withThis (f : Fields -> Fields) (w : World) : World :=
  mkWorld (f (this w)) (env w) (viewInitialized w) (pendingTimer w)
          (pickers w) (nextPicker w) (log w).

Definition withLog (f : list Effect -> list Effect) (w : World) : World :=
  mkWorld (this w) (env w) (viewInitialized w) (pendingTimer w)
          (pickers w) (nextPicker w) (f (log w)).

Definition withPickers (f : gmap nat Picker -> gmap nat Picker) (w : World) : World :=
  mkWorld (this w) (env w) (viewInitialized w) (pendingTimer w)
          (f (pickers w)) (nextPicker w) (log w).

Definition withPendingTimer (t : option nat) (w : World) : World :=
  mkWorld (this w) (env w) (viewInitialized w) t
          (pickers w) (nextPicker w) (log w).

Definition withEnv (e : Env) (w : World) : World :=
  mkWorld (this w) e (viewInitialized w) (pendingTimer w)
          (pickers w) (nextPicker w) (log w).

(** Record a call on the outside. *)
Definition emit (e : Effect) : M unit := modify (withLog (fun l => l ++ [e])).

(** Field assignments [this.f = v]. *)
Definition set_date (d : option string) (f : Fields) : Fields :=
  mkFields (value f) (scheduleManually f) (ignoreNonWorkingDays f) (htmlId f)
           d (debounceDelay f) (changeset f) (datePickerInstance f).

Definition set_scheduleManually (b : bool) (f : Fields) : Fields :=
  mkFields (value f) b (ignoreNonWorkingDays f) (htmlId f)
           (date f) (debounceDelay f) (changeset f) (datePickerInstance f).

Definition set_ignoreNonWorkingDays (b : bool) (f : Fields) : Fields :=
  mkFields (value f) (scheduleManually f) b (htmlId f)
           (date f) (debounceDelay f) (changeset f) (datePickerInstance f).

Definition set_value (v : string) (f : Fields) : Fields :=
  mkFields v (scheduleManually f) (ignoreNonWorkingDays f) (htmlId f)
           (date f) (debounceDelay f) (changeset f) (datePickerInstance f).

Definition set_debounceDelay (n : nat) (f : Fields) : Fields :=
  mkFields (value f) (scheduleManually f) (ignoreNonWorkingDays f) (htmlId f)
           (date f) n (changeset f) (datePickerInstance f).

(** Not an assignment of the field: the in-place update of the object the
    field refers to, used by [changeset_setValue] only. *)
Definition mutate_changeset (c : option Changeset) (f : Fields) : Fields :=
  mkFields (value f) (scheduleManually f) (ignoreNonWorkingDays f) (htmlId f)
           (date f) (debounceDelay f) c (datePickerInstance f).

Definition set_datePickerInstance (i : option nat) (f : Fields) : Fields :=
  mkFields (value f) (scheduleManually f) (ignoreNonWorkingDays f) (htmlId f)
           (date f) (debounceDelay f) (changeset f) i.

(** ** Collaborator calls *)

(** [this.changeset.setValue(key, v)]: a method call on the value of the
    [changeset] field.  On [undefined] JavaScript throws a [TypeError];
    otherwise the edit is stored (see [Changeset]). *)
Definition changeset_setValue (key : string) (v : FieldValue) : M unit :=
  w ← get;
  match changeset (this w) with
  | None => throw TypeError
  | Some cs =>
      emit (SetValue key v);;
      modify (withThis (mutate_changeset (Some (<[key := v]> cs))))
  end.

(** Modelled from the spec: the class [DatePicker] is not part of the
    sources.  [this.datePickerInstance?.destroy()] on an existing instance
    is the spec's "the previous one is always explicitly released": the
    widget leaves the store of live widgets. *)
Definition picker_destroy (id : nat) : M unit :=
  emit (PickerDestroyed id);;
  modify (withPickers (delete id)).

(** Modelled from the spec: [new DatePicker(injector, '#flatpickr-input',
    initial, options, null)] "constructs a new one configured as a
    single-date, always-open, inline calendar": a new live widget object,
    distinct from all earlier ones, that keeps the options it was given. *)
Definition picker_new (initial : string) (showMonths : nat) (minimalDate : MinDate)
  : M nat :=
  w ← get;
  let id := nextPicker w in
  emit (PickerCreated id initial showMonths minimalDate);;
  modify (fun w => mkWorld (this w) (env w) (viewInitialized w) (pendingTimer w)
                     (<[id := mkPicker showMonths minimalDate (InitialDate initial)]> (pickers w))
                     (S (nextPicker w)) (log w));;
  mret id.

(** Modelled from the spec: the helper [setDates(dates, datePicker,
    enforceDate)] of [date-modal.helpers] is not part of the sources; the
    spec says the component "pushes that value into the widget, reconciling
    the widget's internal highlighted date with the local field".  The call
    is logged with its three arguments, and the widget it names takes the
    pushed dates.  The spec does not say what the helper does without a
    widget: nothing changes then. *)
Definition setDates (dates : option Date) (instance : option nat)
    (enforceDate : option Date) : M unit :=
  emit (SetDatesCalled dates instance enforceDate);;
  match instance with
  | Some id =>
      modify (withPickers (alter (fun p =>
        mkPicker (pk_showMonths p) (pk_minimalDate p) (PushedDates dates enforceDate)) id))
  | None => mret tt
  end.

(** ** The methods of the class *)

(** Field initializers: the state of the object when the constructor body
    starts.  [changeset] and [datePickerInstance] have none. *)
Definition initialFields : Fields :=
  mkFields "" false false "" None 0 None None.

Definition initialWorld (e : Env) : World :=
  mkWorld initialFields e false None ∅ 0 [].

(** [constructor]: hands [this.changeset] to the two services. *)
Definition constructor : M unit :=
  w ← get;
  emit (RelationsSetChangeset (changeset (this w)));;
  w ← get;
  emit (SchedulingSetChangeset (changeset (this w))).

(** [private enforceManualChangesToDatepicker(enforceDate?: Date)] *)
Definition enforceManualChangesToDatepicker (enforceDate : option Date) : M unit :=
  w ← get;
  let date := parseDate (ArgString (orEmpty (date (this w)))) in
  setDates date (datePickerInstance (this w)) enforceDate.

(** [updateDate(val: string | null)].  [val.length] counts the characters
    of the string; a string is a sequence of 8-bit characters here, which is
    what a typed date consists of. *)
Definition updateDate (val : option string) : M unit :=
  match val with
  | Some v =>
      if (8 <=? String.length v) || (String.length v =? 0) then
        w ← get;
        if validDate v && bool_decide (is_Some (datePickerInstance (this w))) then
          let dateValue := parseDate (ArgString v) in
          enforceManualChangesToDatepicker dateValue
        else mret tt
      else mret tt
  | None => mret tt
  end.

(** [reposition(element, target)] *)
Definition reposition : M unit :=
  w ← get;
  if isMobile (env w) then mret tt else emit Repositioned.

(** The [onReady] option handed to the widget.  The argument
    [jQuery(this.modalContainer.nativeElement)] is evaluated before
    [reposition] is entered: [modalContainer] is a view child, [undefined]
    until the view is initialized, and reading [nativeElement] of it
    throws. *)
Definition onReady (instance : nat) : M unit :=
  emit (MarkerClassAdded instance);;
  w ← get;
  if viewInitialized w then reposition else throw TypeError.

(** The [onChange] option handed to the widget. *)
Definition onChange (dates : list Date) : M unit :=
  match dates with
  | d0 :: _ =>
      modify (withThis (set_date (Some (formattedISODate (Some d0)))));;
      enforceManualChangesToDatepicker (Some d0)
  | [] => mret tt
  end;;
  emit DetectChanges.

(** The [onDayCreate] option handed to the widget: a closure over the
    [minimalDate] parameter of the [initializeDatepicker] call that built
    the widget; everything else is read from [this] when it runs. *)
Definition onDayCreate (minimalDate : MinDate) (dayElem : DayElement) : M unit :=
  w ← get;
  emit (DayCreated dayElem
          (ignoreNonWorkingDays (this w))
          (match datePickerInstance (this w) with
           | Some _ => Some (isNonWorkingDay (dateObj dayElem))
           | None => None
           end)
          minimalDate
          (isDayDisabled dayElem minimalDate)).

(** [private initializeDatepicker(minimalDate?: Date | null)] *)
Definition initializeDatepicker (minimalDate : MinDate) : M unit :=
  w ← get;
  match datePickerInstance (this w) with
  | Some old => picker_destroy old
  | None => mret tt
  end;;
  w ← get;
  id ← picker_new (orEmpty (date (this w)))
                  (if isMobile (env w) then 1 else 2)
                  minimalDate;
  modify (withThis (set_datePickerInstance (Some id))).

(** The handler subscribed to the debounced [dateChangedManually$]. *)
Definition manualChangeHandler : M unit :=
  modify (withThis (set_debounceDelay 800));;
  w ← get;
  updateDate (date (this w)).

(** [ngAfterViewInit()]: the two subscriptions. *)
Definition ngAfterViewInit : M unit :=
  emit SubscribedMinimalDate;;
  emit SubscribedManualChanges;;
  modify (fun w => mkWorld (this w) (env w) true (pendingTimer w)
                     (pickers w) (nextPicker w) (log w)).

(** [changeSchedulingMode()] *)
Definition changeSchedulingMode : M unit :=
  initializeDatepicker MDUndefined;;
  emit DetectChanges.

(** [changeNonWorkingDays()]: the body of its [if] is commented out. *)
Definition changeNonWorkingDays : M unit :=
  initializeDatepicker MDUndefined;;
  w ← get;
  (if negb (ignoreNonWorkingDays (this w))
      && bool_decide (orEmpty (date (this w)) ≠ "")
   then mret tt else mret tt);;
  emit DetectChanges.

(** [save($event)] *)
Definition save : M unit :=
  emit PreventDefault;;
  w ← get;
  changeset_setValue "scheduleManually" (VBool (scheduleManually (this w)));;
  w ← get;
  changeset_setValue "ignoreNonWorkingDays" (VBool (ignoreNonWorkingDays (this w)));;
  w ← get;
  (if isSchedulable (env w)
   then changeset_setValue "date" (VDate (mappedDate (date (this w))))
   else mret tt);;
  emit SavedOrCancelled.

(** [cancel()] *)
Definition cancel : M unit :=
  emit SavedOrCancelled.

(** [setToday()]: the cast [as Date] does nothing at run time. *)
Definition setToday : M unit :=
  w ← get;
  let today := parseDate (ArgDate (now (env w))) in
  modify (withThis (set_date (Some (formattedISODate today))));;
  enforceManualChangesToDatepicker today.

(** [private updateDatesFromForm(form)], on the form's payload. *)
Definition updateDatesFromForm (payloadDate : string) (payloadIgnore : bool) : M unit :=
  modify (withThis (set_date (Some payloadDate)));;
  modify (withThis (set_ignoreNonWorkingDays payloadIgnore));;
  let parsedDate := parseDate (ArgString payloadDate) in
  enforceManualChangesToDatepicker parsedDate.

(** ** The debounce pipeline

    [dateChangedManually$.pipe(debounce(() => timer(this.debounceDelay)))]:
    rxjs evaluates the duration selector at each source emission, replacing
    the pending timer by one of the delay read then; when the pending timer
    elapses the subscriber runs once ("each new signal resets the timer",
    as the spec puts it).  Time itself is not modelled: a timer is armed
    with a delay and, some time later, elapses. *)
Definition dateChangedManually_next : M unit :=
  w ← get;
  if viewInitialized w then
    let d := debounceDelay (this w) in
    emit (TimerArmed d);;
    modify (withPendingTimer (Some d))
  else mret tt.

Definition debounceTimerElapses : M unit :=
  w ← get;
  match pendingTimer w with
  | Some d =>
      modify (withPendingTimer None);;
      emit (TimerElapsed d);;
      manualChangeHandler
  | None => mret tt
  end.

(** ** What can happen to a component *)

(** Everything that drives the component after its construction: Angular's
    lifecycle hook, the template's bindings on the public fields, the public
    methods, the callbacks of a live widget, the emissions of the relations
    service and the passing of time. *)
Inductive Op : Type :=
| NgAfterViewInit
| MinimalDateEmitted (d : option Date)
| InputValue (v : string)
| UserSetsDate (d : option string)
| UserSetsScheduleManually (b : bool)
| UserSetsIgnoreNonWorkingDays (b : bool)
| DateChangedManually
| DebounceTimerElapses
| ChangeSchedulingMode
| ChangeNonWorkingDays
| Save
| Cancel
| UpdateDate (val : option string)
| SetToday
| Reposition
| PickerReady (id : nat)
| PickerChange (id : nat) (dates : list Date)
| PickerDayCreate (id : nat) (dayElem : DayElement)
| UpdateDatesFromForm (payloadDate : string) (payloadIgnore : bool)
| EnvChanges (e : Env).

(** Angular runs [ngAfterViewInit] once per component; the relations
    service emits to its subscriber only; a widget calls back only while it
    is live. *)
Definition exec (op : Op) : M unit :=
  match op with
  | NgAfterViewInit =>
      w ← get;
      if viewInitialized w then mret tt else ngAfterViewInit
  | MinimalDateEmitted d =>
      w ← get;
      if viewInitialized w
      then initializeDatepicker (match d with Some d => MDDate d | None => MDNull end)
      else mret tt
  | InputValue v => modify (withThis (set_value v))
  | UserSetsDate d => modify (withThis (set_date d))
  | UserSetsScheduleManually b => modify (withThis (set_scheduleManually b))
  | UserSetsIgnoreNonWorkingDays b => modify (withThis (set_ignoreNonWorkingDays b))
  | DateChangedManually => dateChangedManually_next
  | DebounceTimerElapses => debounceTimerElapses
  | ChangeSchedulingMode => changeSchedulingMode
  | ChangeNonWorkingDays => changeNonWorkingDays
  | Save => save
  | Cancel => cancel
  | UpdateDate val => updateDate val
  | SetToday => setToday
  | Reposition => reposition
  | PickerReady id =>
      w ← get;
      if bool_decide (is_Some (pickers w !! id)) then onReady id else mret tt
  | PickerChange id dates =>
      w ← get;
      if bool_decide (is_Some (pickers w !! id)) then onChange dates else mret tt
  | PickerDayCreate id dayElem =>
      w ← get;
      match pickers w !! id with
      | Some p => onDayCreate (pk_minimalDate p) dayElem
      | None => mret tt
      end
  | UpdateDatesFromForm d b => updateDatesFromForm d b
  | EnvChanges e => modify (withEnv e)
  end.

(** An exception leaves the method; the component lives on in the world
    reached so far. *)
Definition run (op : Op) (w : World) : World := (exec op w).2.

Definition runAll (ops : list Op) (w : World) : World := foldl (fun w op => run op w) w ops.

(** The component right after [new OpSingleDateFormComponent(...)]. *)
Definition constructed (e : Env) : World := (constructor (initialWorld e)).2.

(** ** Views on the log *)

(** The widgets alive after a log: created and not destroyed since. *)
Definition live_step (s : gset nat) (e : Effect) : gset nat :=
  match e with
  | PickerCreated id _ _ _ => {[id]} ∪ s
  | PickerDestroyed id => s ∖ {[id]}
  | _ => s
  end.

Definition live_at (l : list Effect) : gset nat := foldl live_step ∅ l.

(** At no moment of the log are two widgets alive. *)
Definition never_two (l : list Effect) : Prop :=
  ∀ k, size (live_at (take k l)) ≤ 1.

(** The delays of the debounce timers that elapsed, oldest first. *)
Fixpoint elapsed_delays (l : list Effect) : list nat :=
  match l with
  | [] => []
  | TimerElapsed d :: l' => d :: elapsed_delays l'
  | _ :: l' => elapsed_delays l'
  end.

Definition is_SetValue (e : Effect) : bool :=
  match e with SetValue _ _ => true | _ => false end.

Definition is_SavedOrCancelled (e : Effect) : bool :=
  match e with SavedOrCancelled => true | _ => false end.

Definition is_SetDatesCalled (e : Effect) : bool :=
  match e with SetDatesCalled _ _ _ => true | _ => false end.

Definition is_timer (e : Effect) : bool :=
  match e with TimerArmed _ | TimerElapsed _ => true | _ => false end.

(** The [destroy()] calls [initializeDatepicker] makes on the instance it
    finds: one on an existing instance, none otherwise. *)
Definition destroy_calls (instance : option nat) : list Effect :=
  match instance with
  | Some id => [PickerDestroyed id]
  | None => []
  end.

(** The component holds a live widget whose [onDayCreate] closure captured
    the floor [md]: whenever that widget creates a day cell, [md] is what
    both the styling helper and the scheduling service's [isDayDisabled]
    receive. *)
Definition dayCreate_floor (w : World) (md : MinDate) : Prop :=
  ∃ id p,
    datePickerInstance (this w) = Some id
    ∧ pickers w !! id = Some p
    ∧ pk_minimalDate p = md
    ∧ ∀ dayElem,
        log (run (PickerDayCreate id dayElem) w) =
        log w ++ [DayCreated dayElem (ignoreNonWorkingDays (this w))
                    (Some (isNonWorkingDay (dateObj dayElem)))
                    md (isDayDisabled dayElem md)].

(** The widgets the component may hold: its current instance, if any. *)
Definition held (instance : option nat) : gset nat :=
  match instance with
  | Some id => {[id]}
  | None => ∅
  end.

(** The debounce pipeline is consistent: a pending timer was armed with the
    current delay; the delay is 0 as long as no timer has elapsed, and
    800 from then on, the first elapsed timer having waited 0 ms and all
    later ones 800 ms. *)
Definition debounce_ok (w : World) : Prop :=
  (pendingTimer w = None ∨ pendingTimer w = Some (debounceDelay (this w)))
  ∧ ((debounceDelay (this w) = 0 ∧ elapsed_delays (log w) = [])
     ∨ (debounceDelay (this w) = 800
        ∧ ∃ n, elapsed_delays (log w) = 0 :: replicate n 800)).

(** The widgets are consistent: never two alive, and the ones alive, in the
    log and in the store, are the one the component holds. *)
Definition widget_ok (w : World) : Prop :=
  never_two (log w)
  ∧ live_at (log w) = held (datePickerInstance (this w))
  ∧ dom (pickers w) = held (datePickerInstance (this w)).

(** The selected date of widget [id]: the date last pushed into it, if it
    is alive and a date was pushed since it was built. *)
Definition selectedDate (w : World) (id : nat) : option (option Date) :=
  match pk_dates <$> pickers w !! id with
  | Some (PushedDates d _) => Some d
  | _ => None
  end.

(** How often a kind of call occurs in a log. *)
Definition count (p : Effect -> bool) (l : list Effect) : nat :=
  length (filter (fun e => p e = true) l).

(** ** Further views *)

Definition is_PreventDefault (e : Effect) : bool :=
  match e with PreventDefault => true | _ => false end.

Definition is_Cancel (op : Op) : bool :=
  match op with Cancel => true | _ => false end.

Definition is_Save (op : Op) : bool :=
  match op with Save => true | _ => false end.

(** How often a kind of operation occurs in a run. *)
Definition countOps (p : Op -> bool) (ops : list Op) : nat :=
  length (filter (fun op => p op = true) ops).

(** The world seen without the [value] input of the component. *)
Definition forgetValue (w : World) : World := withThis (set_value "") w.

(** A [setDates] call that selects, in the widget the component holds, the
    parse of the component's local date. *)
Definition push_agrees (f : Fields) (e : Effect) : Prop :=
  match e with
  | SetDatesCalled dates instance _ =>
      dates = parseDate (ArgString (orEmpty (date f)))
      ∧ instance = datePickerInstance f
  | _ => True
  end.

(** The operation does not move the component to another kind of device:
    [isMobile] stays [b]. *)
Definition keeps_device (b : bool) (op : Op) : Prop :=
  match op with
  | EnvChanges e => isMobile e = b
  | _ => True
  end.

(** An outside call as it must look on a device whose [isMobile] is [b]:
    a widget shows one month on a mobile device and two otherwise, and the
    modal is repositioned on other than mobile devices only. *)
Definition device_ok (b : bool) (e : Effect) : Prop :=
  match e with
  | PickerCreated _ _ showMonths _ => showMonths = if b then 1 else 2
  | Repositioned => b = false
  | _ => True
  end.

End Component.

Arguments Externals Date : clear implicits.
Arguments DateArg Date : clear implicits.
Arguments MinDate Date : clear implicits.
Arguments DayElement Date : clear implicits.
Arguments Env Date : clear implicits.
Arguments World Date : clear implicits.
Arguments Op Date : clear implicits.
Arguments Effect Date : clear implicits.

(** ** A concrete reading of the helpers

    Used to run the component on examples: a day is named by its ISO text,
    parsing the empty string gives [''], a string is a valid date when it is
    made of digits and dashes, and no day is disabled. *)
Module Iso.

Definition isDateChar (c : Ascii.ascii) : bool :=
  let n := Ascii.nat_of_ascii c in
  (n =? 45) || ((48 <=? n) && (n <=? 57)).

Definition validIso (s : string) : bool :=
  forallb isDateChar (list_ascii_of_string s).

Definition parseIso (a : DateArg string) : option string :=
  match a with
  | ArgDate d => Some d
  | ArgString s => if String.eqb s "" then None else Some s
  end.

Definition mappedIso (d : option string) : option string :=
  match d with
  | Some s => if String.eqb s "" then None else Some s
  | None => None
  end.

#[global] Instance externals : Externals string := {|
  validDate := validIso;
  parseDate := parseIso;
  mappedDate := mappedIso;
  formattedISODate := orEmpty;
  isNonWorkingDay := fun _ => false;
  isDayDisabled := fun _ _ => false
|}.

Definition env0 : Env string := mkEnv true false "2023-03-15".

(** A component whose view is initialized, whose widget was built on a
    [null] minimal date, and whose date field holds 2022-01-01. *)
Definition ready : World string :=
  runAll [NgAfterViewInit; MinimalDateEmitted None; UserSetsDate (Some "2022-01-01")]
         (constructed env0).

(** The same component, had something assigned an empty changeset to its
    [changeset] field. *)
Definition readyWithChangeset : World string :=
  withThis (mutate_changeset (Some ∅)) ready.

End Iso.

(** * Properties *)

Section Properties.

Context {Date : Type} `{!Externals Date}.

Implicit Types (w : World Date) (op : Op Date) (l : list (Effect Date)).

(** Unfolds the monad, the field updates and the methods, and nothing of the
    finite maps and sets underneath. *)
Ltac unfold_methods :=
  cbv beta iota zeta delta
    [mbind mret M_bind M_ret throw get modify emit
     withThis withLog withPickers withPendingTimer withEnv
     set_date set_scheduleManually set_ignoreNonWorkingDays set_value
     set_debounceDelay mutate_changeset set_datePickerInstance
     this env viewInitialized pendingTimer pickers nextPicker log
     value scheduleManually ignoreNonWorkingDays htmlId date debounceDelay
     changeset datePickerInstance isSchedulable isMobile now
     changeset_setValue picker_destroy picker_new setDates
     initialFields initialWorld constructor constructed
     enforceManualChangesToDatepicker updateDate reposition onReady onChange
     onDayCreate initializeDatepicker manualChangeHandler ngAfterViewInit
     changeSchedulingMode changeNonWorkingDays save cancel setToday
     updateDatesFromForm dateChangedManually_next debounceTimerElapses
     exec run fst snd] in *.

(** Case analysis on an innermost condition the code branches on. *)
Ltac case_cond :=
  match goal with
  | |- context [match ?x with _ => _ end] =>
      lazymatch x with
      | context [match _ with _ => _ end] => fail
      | _ => destruct x eqn:?
      end
  end.

(** ** The log *)

Lemma count_app p l l' : count p (l ++ l') = count p l + count p l'.
Proof. unfold count. by rewrite filter_app, length_app. Qed.

Lemma elapsed_delays_app l l' :
  elapsed_delays (l ++ l') = elapsed_delays l ++ elapsed_delays l'.
Proof.
  induction l as [|e l IH]; [done|].
  destruct e; simpl; rewrite ?IH; done.
Qed.

Lemma live_at_snoc l e : live_at (l ++ [e]) = live_step (live_at l) e.
Proof. unfold live_at. by rewrite foldl_app. Qed.

Lemma never_two_nil : never_two (@nil (Effect Date)).
Proof.
  intros k. rewrite take_nil.
  change (size (∅ : gset nat) ≤ 1). rewrite size_empty. lia.
Qed.

Lemma never_two_snoc l e :
  never_two l → size (live_at (l ++ [e])) ≤ 1 → never_two (l ++ [e]).
Proof.
  intros Hl He k.
  destruct (decide (k ≤ length l)) as [Hk|Hk].
  - rewrite take_app_le by done. apply Hl.
  - rewrite take_ge by (rewrite length_app; simpl; lia). done.
Qed.

(** ** Cancel *)

(** C7: [cancel()] returns normally, leaves every field of the component
    (the local date, both toggles and the changeset it refers to) and every
    widget as they were, and adds to the log exactly one call: the emission
    of [savedOrCancelled]; no [setValue] is made. *)
Theorem cancel_writes_nothing_emits_once w :
  let w' := (cancel w).2 in
  (cancel w).1 = Returned tt
  ∧ this w' = this w
  ∧ pickers w' = pickers w
  ∧ log w' = log w ++ [SavedOrCancelled]
  ∧ count is_SetValue (log w') = count is_SetValue (log w)
  ∧ count is_SavedOrCancelled (log w') = S (count is_SavedOrCancelled (log w)).
Proof.
  destruct w as [f e vi pt pk np lg]. unfold_methods. repeat split.
  - rewrite count_app. unfold count at 2. simpl. lia.
  - rewrite count_app. unfold count at 2. simpl. lia.
Qed.

(** ** Reachable worlds *)

Lemma runAll_invariant (P : World Date → Prop) :
  (∀ w op, P w → P (run op w)) →
  ∀ ops w, P w → P (runAll ops w).
Proof.
  intros Hstep ops. induction ops as [|op ops IH]; intros w Hw; [done|].
  apply IH, Hstep, Hw.
Qed.

Lemma runAll_app ops ops' w : runAll (ops ++ ops') w = runAll ops' (runAll ops w).
Proof. unfold runAll. by rewrite foldl_app. Qed.

(** ** The changeset field *)

Lemma run_changeset_None w op :
  changeset (this w) = None → changeset (this (run op w)) = None.
Proof.
  destruct w as [[v sm inwd hid d dd cs dpi] [sch mob td] vi pt pk np lg].
  intros Hcs. cbv [this changeset] in Hcs. subst cs.
  destruct op; unfold_methods; repeat (case_cond; unfold_methods); done.
Qed.

Lemma constructed_changeset (e : Env Date) : changeset (this (constructed e)) = None.
Proof. done. Qed.

Lemma reachable_changeset_None (e : Env Date) ops :
  changeset (this (runAll ops (constructed e))) = None.
Proof.
  apply (runAll_invariant (fun w => changeset (this w) = None)).
  - intros w op. apply run_changeset_None.
  - apply constructed_changeset.
Qed.

Lemma setValue_on_undefined w key v :
  changeset (this w) = None → changeset_setValue key v w = (Thrown TypeError, w).
Proof. intros Hcs. unfold changeset_setValue. cbv [mbind M_bind get]. by rewrite Hcs. Qed.

Lemma save_on_undefined w :
  changeset (this w) = None →
  save w = (Thrown TypeError, withLog (fun l => l ++ [PreventDefault]) w).
Proof.
  destruct w as [[v sm inwd hid d dd cs dpi] en vi pt pk np lg].
  cbv [this changeset]. intros ->. by unfold_methods.
Qed.

(** What [save] does when a changeset is there: the behaviour its comments
    announce. *)
Lemma save_intended_behaviour w cs :
  changeset (this w) = Some cs →
  let w' := (save w).2 in
  let cs2 := <["ignoreNonWorkingDays" := VBool (ignoreNonWorkingDays (this w))]>
               (<["scheduleManually" := VBool (scheduleManually (this w))]> cs) in
  (save w).1 = Returned tt
  ∧ changeset (this w') =
      Some (if isSchedulable (env w)
            then <["date" := VDate (mappedDate (date (this w)))]> cs2
            else cs2)
  ∧ log w' =
      log w ++ [PreventDefault;
                SetValue "scheduleManually" (VBool (scheduleManually (this w)));
                SetValue "ignoreNonWorkingDays" (VBool (ignoreNonWorkingDays (this w)))]
            ++ (if isSchedulable (env w)
                then [SetValue "date" (VDate (mappedDate (date (this w))))]
                else [])
            ++ [SavedOrCancelled].
Proof.
  destruct w as [[v sm inwd hid d dd cs0 dpi] [sch mob td] vi pt pk np lg].
  cbv [this changeset]. intros ->.
  destruct sch; unfold_methods; repeat split; by rewrite <- ?app_assoc.
Qed.

(** C1: on a component as its constructor leaves it, [save($event)] calls
    [preventDefault] and then throws a [TypeError] on the first [setValue]:
    nothing is written and [savedOrCancelled] is not emitted. *)
Theorem save_on_constructed_component_throws (e : Env Date) :
  let w' := (save (constructed e)).2 in
  (save (constructed e)).1 = Thrown TypeError
  ∧ log w' = [RelationsSetChangeset None; SchedulingSetChangeset None; PreventDefault]
  ∧ changeset (this w') = None
  ∧ count is_SetValue (log w') = 0
  ∧ count is_SavedOrCancelled (log w') = 0.
Proof. destruct e. by unfold_methods. Qed.

(** C2: the constructor hands the unassigned [this.changeset] ([undefined])
    to the relations and to the scheduling service; whatever happens to the
    component afterwards, the field is still [undefined], so every
    [setValue] on it, and with it every [save()], throws a [TypeError]
    right after [preventDefault]. *)
Theorem changeset_never_assigned (e : Env Date) (ops : list (Op Date)) :
  let w := runAll ops (constructed e) in
  changeset initialFields = None
  ∧ log (constructed e) = [RelationsSetChangeset None; SchedulingSetChangeset None]
  ∧ changeset (this w) = None
  ∧ (∀ key v, changeset_setValue key v w = (Thrown TypeError, w))
  ∧ save w = (Thrown TypeError, withLog (fun l => l ++ [PreventDefault]) w).
Proof.
  intros w. pose proof (reachable_changeset_None e ops) as Hcs. fold w in Hcs.
  repeat split; [done| |].
  - intros key v. by apply setValue_on_undefined.
  - by apply save_on_undefined.
Qed.

(** ** Date synchronization *)

(** C4 (amended): for a valid string of at least 8 characters,
    [updateDate] returns normally and leaves the local date field as it
    was.  If the component holds a widget, [setDates] is called once on it:
    the date selected is the parse of the local date field
    ([this.date || '']), not of the argument, and the parsed argument is
    the date the widget is made to show; the widget, if alive, takes them.
    If the component holds no widget, nothing happens. *)
Theorem updateDate_selects_local_date w v :
  8 ≤ String.length v → validDate v = true →
  let selected := parseDate (ArgString (orEmpty (date (this w)))) in
  let shown := parseDate (ArgString v) in
  let w' := (updateDate (Some v) w).2 in
  (updateDate (Some v) w).1 = Returned tt
  ∧ date (this w') = date (this w)
  ∧ match datePickerInstance (this w) with
    | Some id =>
        log w' = log w ++ [SetDatesCalled selected (Some id) shown]
        ∧ selectedDate w' id = (fun _ => selected) <$> pickers w !! id
        ∧ pk_dates <$> pickers w' !! id
          = (fun _ => PushedDates selected shown) <$> pickers w !! id
    | None => w' = w
    end.
Proof.
  destruct w as [[vl sm inwd hid d dd cs dpi] en vi pt pk np lg].
  intros Hlen Hvalid. apply Nat.leb_le in Hlen.
  unfold selectedDate. unfold_methods. rewrite Hlen. cbv [orb]. unfold_methods.
  rewrite Hvalid. cbv [andb]. destruct dpi as [id|].
  - rewrite bool_decide_eq_true_2 by eauto. unfold_methods.
    rewrite lookup_alter_eq. by destruct (pk !! id).
  - rewrite bool_decide_eq_false_2 by (by intros [? ?]). by unfold_methods.
Qed.

(** X16: the debounced path: the user types [v] into the date field, the
    change is signalled, and the debounce timer elapses. *)
Lemma manual_edit_reaches_widget w v id p :
  viewInitialized w = true →
  8 ≤ String.length v → validDate v = true →
  datePickerInstance (this w) = Some id → pickers w !! id = Some p →
  let w' := runAll [UserSetsDate (Some v); DateChangedManually; DebounceTimerElapses] w in
  selectedDate w' id = Some (parseDate (ArgString v))
  ∧ date (this w') = Some v.
Proof.
  destruct w as [[vl sm inwd hid d dd cs dpi] en vi pt pk np lg].
  cbv [viewInitialized this datePickerInstance pickers].
  intros -> Hlen Hvalid -> Hp. apply Nat.leb_le in Hlen.
  cbv [runAll foldl]. unfold_methods.
  rewrite Hlen. cbv [orb]. unfold_methods.
  rewrite Hvalid, bool_decide_eq_true_2 by eauto. cbv [andb].
  unfold selectedDate. unfold_methods.
  by rewrite lookup_alter_eq, Hp.
Qed.

(** C5: a non-empty string shorter than 8 characters, and a string the
    validity check rejects, make [updateDate] return normally with the
    world exactly as it was: no widget changes, nothing is logged, nothing
    is thrown. *)
Theorem updateDate_ignores_short_or_invalid w v :
  0 < String.length v < 8 ∨ validDate v = false →
  updateDate (Some v) w = (Returned tt, w).
Proof.
  intros Hv. unfold updateDate.
  destruct ((8 <=? String.length v) || (String.length v =? 0)) eqn:Hlen; [|done].
  destruct Hv as [Hshort|Hinvalid].
  - apply orb_true_iff in Hlen as [H8|H0]; [apply Nat.leb_le in H8|apply Nat.eqb_eq in H0]; lia.
  - cbv [mbind M_bind get]. by rewrite Hinvalid.
Qed.

(** ** Today *)

(** C8: [setToday()] returns normally; the local date becomes today's date
    as the timezone service formats it; in the same call [setDates] is
    called once on the current widget with that date (parsed back) and
    today as the date to show, and the widget takes them; the debounce
    pipeline is not involved: no timer is armed or elapses, the pending
    timer and the delay are as before. *)
Theorem setToday_sets_date_and_pushes w :
  let t := parseDate (ArgDate (now (env w))) in
  let pushed := parseDate (ArgString (formattedISODate t)) in
  let w' := (setToday w).2 in
  (setToday w).1 = Returned tt
  ∧ date (this w') = Some (formattedISODate t)
  ∧ log w' = log w ++ [SetDatesCalled pushed (datePickerInstance (this w)) t]
  ∧ pickers w' =
      match datePickerInstance (this w) with
      | Some id => alter (fun p => mkPicker (pk_showMonths p) (pk_minimalDate p)
                                            (PushedDates pushed t)) id (pickers w)
      | None => pickers w
      end
  ∧ count is_timer (log w') = count is_timer (log w)
  ∧ pendingTimer w' = pendingTimer w
  ∧ debounceDelay (this w') = debounceDelay (this w).
Proof.
  destruct w as [[vl sm inwd hid d dd cs dpi] [sch mob td] vi pt pk np lg].
  destruct dpi; unfold_methods; repeat split;
    rewrite count_app; unfold count at 2; simpl; lia.
Qed.

(** ** The widget's callbacks *)

(** C10: when [onChange] fires with no selected date, the callback returns
    normally and the only thing that happens is one change-detection
    request: the fields (so the local date) and the widgets are untouched
    and [setDates] is not called.  With a first selected date [d0], the
    local date becomes [d0] formatted by the timezone service, [setDates]
    is called once, and change detection is requested. *)
Theorem onChange_empty_selection w d0 ds :
  let w0 := (onChange [] w).2 in
  let w1 := (onChange (d0 :: ds) w).2 in
  (onChange [] w).1 = Returned tt
  ∧ this w0 = this w
  ∧ pickers w0 = pickers w
  ∧ log w0 = log w ++ [DetectChanges]
  ∧ (onChange (d0 :: ds) w).1 = Returned tt
  ∧ date (this w1) = Some (formattedISODate (Some d0))
  ∧ log w1 = log w ++ [SetDatesCalled
                         (parseDate (ArgString (formattedISODate (Some d0))))
                         (datePickerInstance (this w)) (Some d0);
                       DetectChanges].
Proof.
  destruct w as [[vl sm inwd hid d dd cs dpi] [sch mob td] vi pt pk np lg].
  destruct dpi; unfold_methods; repeat split; by rewrite <- ?app_assoc.
Qed.

(** ** Widget (re)initialization *)

Lemma initializeDatepicker_spec w md :
  let id := nextPicker w in
  let showMonths := if isMobile (env w) then 1 else 2 in
  let w' := (initializeDatepicker md w).2 in
  (initializeDatepicker md w).1 = Returned tt
  ∧ this w' = set_datePickerInstance (Some id) (this w)
  ∧ pickers w' =
      <[id := mkPicker showMonths md (InitialDate (orEmpty (date (this w))))]>
        (match datePickerInstance (this w) with
         | Some old => delete old (pickers w)
         | None => pickers w
         end)
  ∧ log w' = log w ++ destroy_calls (datePickerInstance (this w))
                   ++ [PickerCreated id (orEmpty (date (this w))) showMonths md]
  ∧ env w' = env w ∧ viewInitialized w' = viewInitialized w
  ∧ pendingTimer w' = pendingTimer w ∧ nextPicker w' = S (nextPicker w).
Proof.
  destruct w as [[vl sm inwd hid d dd cs dpi] [sch mob td] vi pt pk np lg].
  destruct dpi; unfold_methods; cbv [destroy_calls];
    repeat split; by rewrite <- ?app_assoc, ?app_nil_r.
Qed.

Lemma dayCreate_floor_intro w id p :
  datePickerInstance (this w) = Some id →
  pickers w !! id = Some p →
  dayCreate_floor w (pk_minimalDate p).
Proof.
  intros Hi Hp. exists id, p. repeat split; [done..|]. intros dayElem.
  destruct w as [[vl sm inwd hid d dd cs dpi] en vi pt pk np lg].
  cbv [this datePickerInstance pickers] in Hi, Hp. subst dpi.
  unfold_methods. rewrite Hp. by unfold_methods.
Qed.

Lemma toggle_dayCreate_floor w op :
  op = ChangeSchedulingMode ∨ op = ChangeNonWorkingDays →
  dayCreate_floor (run op w) MDUndefined.
Proof.
  destruct w as [[vl sm inwd hid d dd cs dpi] [sch mob td] vi pt pk np lg].
  set (p := mkPicker (if mob then 1 else 2) (@MDUndefined Date) (InitialDate (orEmpty d))).
  intros Hop. change (@MDUndefined Date) with (pk_minimalDate p).
  apply (dayCreate_floor_intro _ np).
  - destruct Hop as [-> | ->], dpi, mob; unfold_methods;
      repeat (case_cond; unfold_methods); done.
  - destruct Hop as [-> | ->], dpi, mob; unfold_methods;
      repeat (case_cond; unfold_methods); apply lookup_insert_eq.
Qed.

(** X15: a minimal date delivered to an initialized view is the floor of
    the widget built for it. *)
Lemma minimalDate_dayCreate_floor w d :
  viewInitialized w = true →
  dayCreate_floor (run (MinimalDateEmitted d) w)
                  (match d with Some d => MDDate d | None => MDNull end).
Proof.
  destruct w as [[vl sm inwd hid dt dd cs dpi] [sch mob td] vi pt pk np lg].
  cbv [viewInitialized]. intros ->.
  set (md := match d with Some d => MDDate d | None => MDNull end).
  set (p := mkPicker (if mob then 1 else 2) md (InitialDate (orEmpty dt))).
  change md with (pk_minimalDate p).
  apply (dayCreate_floor_intro _ np).
  - destruct dpi, mob; by unfold_methods.
  - destruct dpi, mob; unfold_methods; apply lookup_insert_eq.
Qed.

(** C9: whatever minimal date the relations service delivered before,
    after [changeSchedulingMode()] and after [changeNonWorkingDays()] the
    component holds a rebuilt widget whose [onDayCreate] callback passes
    [undefined] as minimal date, to the styling helper and to
    [isDayDisabled]. *)
Theorem toggles_rebuild_without_minimal_date w (d : option Date) :
  let w0 := run (MinimalDateEmitted d) w in
  dayCreate_floor (run ChangeSchedulingMode w0) MDUndefined
  ∧ dayCreate_floor (run ChangeNonWorkingDays w0) MDUndefined.
Proof. split; apply toggle_dayCreate_floor; auto. Qed.

(** ** The debounce delay *)

Lemma run_debounceDelay_800 w op :
  debounceDelay (this w) = 800 → debounceDelay (this (run op w)) = 800.
Proof.
  destruct w as [[v sm inwd hid d dd cs dpi] [sch mob td] vi pt pk np lg].
  cbv [this debounceDelay]. intros ->.
  destruct op; unfold_methods; repeat (case_cond; unfold_methods); done.
Qed.

Lemma runAll_debounceDelay_800 w ops :
  debounceDelay (this w) = 800 → debounceDelay (this (runAll ops w)) = 800.
Proof.
  apply (runAll_invariant (fun w => debounceDelay (this w) = 800)).
  intros w' op. apply run_debounceDelay_800.
Qed.

Lemma constructed_debounce_ok (e : Env Date) : debounce_ok (constructed e).
Proof. destruct e. split; left; done. Qed.

Lemma run_debounce_ok w op : debounce_ok w → debounce_ok (run op w).
Proof.
  destruct w as [[v sm inwd hid d dd cs dpi] [sch mob td] vi pt pk np lg].
  unfold debounce_ok. cbv [this debounceDelay pendingTimer log].
  intros [Hp Hd].
  destruct op; unfold_methods; repeat (case_cond; unfold_methods);
    rewrite ?elapsed_delays_app; cbn [elapsed_delays]; rewrite ?app_nil_r;
    try (split; [first [assumption | by left | by right] | assumption]).
  all: (split; [by left|right; split; [done|]]).
  all: destruct Hp as [?|[= ->]]; [done|].
  all: destruct Hd as [[-> ->]|[-> [k ->]]]; [by exists 0|exists (S k)].
  all: cbn [replicate app]; by rewrite replicate_cons_app.
Qed.

Lemma reachable_debounce_ok (e : Env Date) ops :
  debounce_ok (runAll ops (constructed e)).
Proof.
  apply (runAll_invariant debounce_ok).
  - intros w op. apply run_debounce_ok.
  - apply constructed_debounce_ok.
Qed.

Lemma signal_then_elapse w :
  let armed := run DateChangedManually (run NgAfterViewInit w) in
  let w1 := run DebounceTimerElapses armed in
  pendingTimer armed = Some (debounceDelay (this w))
  ∧ elapsed_delays (log w1) = elapsed_delays (log w) ++ [debounceDelay (this w)]
  ∧ debounceDelay (this w1) = 800
  ∧ pendingTimer w1 = None.
Proof.
  destruct w as [[v sm inwd hid d dd cs dpi] [sch mob td] vi pt pk np lg].
  destruct vi; unfold_methods; repeat (case_cond; unfold_methods);
    rewrite ?elapsed_delays_app; cbn [elapsed_delays]; rewrite ?app_nil_r; done.
Qed.

(** C3: the delay is 0 on a new component.  At any later moment, either
    no debounce timer has elapsed yet and the delay is still 0, or the
    delay is 800 and the timers that elapsed waited 0 ms (the first) and
    800 ms (all others).  On the initialized view a manual-change signal
    arms a timer with the current delay, and when that timer elapses the
    handler runs: the first such reconciliation has waited 0 ms, every
    later one 800 ms, and after it the delay is 800 and no timer is
    pending.  Nothing that happens afterwards lowers the delay: once 800,
    it stays 800. *)
Theorem debounce_delay_zero_then_800 (e : Env Date) (ops ops' : list (Op Date)) :
  let w := runAll ops (constructed e) in
  let armed := run DateChangedManually (run NgAfterViewInit w) in
  let w1 := run DebounceTimerElapses armed in
  debounceDelay (this (constructed e)) = 0
  ∧ ((debounceDelay (this w) = 0 ∧ elapsed_delays (log w) = [])
     ∨ (debounceDelay (this w) = 800
        ∧ ∃ n, elapsed_delays (log w) = 0 :: replicate n 800))
  ∧ pendingTimer armed = Some (debounceDelay (this w))
  ∧ elapsed_delays (log w1) =
      match elapsed_delays (log w) with
      | [] => [0]
      | first :: later => (first :: later) ++ [800]
      end
  ∧ debounceDelay (this w1) = 800
  ∧ pendingTimer w1 = None
  ∧ debounceDelay (this w) ≤ debounceDelay (this (runAll ops' w)).
Proof.
  intros w armed w1. split; [done|].
  destruct (reachable_debounce_ok e ops) as [_ Hd]. fold w in Hd.
  destruct (signal_then_elapse w) as (Harmed & Helapsed & H800 & Hnone).
  fold armed in Harmed. fold armed w1 in Helapsed, H800, Hnone.
  split; [done|]. split; [done|]. split.
  { rewrite Helapsed.
    destruct Hd as [[-> ->]|[-> [n ->]]]; done. }
  split; [done|]. split; [done|].
  destruct Hd as [[-> _]|[Hw _]]; [lia|].
  by rewrite (runAll_debounceDelay_800 w ops'), Hw.
Qed.

(** The first timer armed on an initialized view elapses after 0 ms and
    runs the handler, which widens the delay. *)
Lemma first_manual_change_fires_at_zero (e : Env Date) :
  let w := runAll [NgAfterViewInit; DateChangedManually; DebounceTimerElapses]
                  (constructed e) in
  elapsed_delays (log w) = [0] ∧ debounceDelay (this w) = 800.
Proof. destruct e. by unfold_methods. Qed.

(** ** At most one widget *)

Lemma size_at_most_one (X : gset nat) a : X ⊆ {[a]} → size X ≤ 1.
Proof. intros HX. apply subseteq_size in HX. by rewrite size_singleton in HX. Qed.

Lemma held_at_most_one (i : option nat) : size (held i) ≤ 1.
Proof.
  destruct i as [id|]; simpl.
  - by apply (size_at_most_one _ id).
  - by apply (size_at_most_one _ 0).
Qed.

Lemma constructed_widget_ok (e : Env Date) : widget_ok (constructed e).
Proof.
  destruct e. split; [|by split].
  unfold_methods.
  apply never_two_snoc; [apply never_two_snoc; [apply never_two_nil|]|];
    rewrite !live_at_snoc; cbn [live_step]; apply (held_at_most_one None).
Qed.

#[local] Set Warnings "-clear-no-such-hyp".

(** Closes a step of the widget invariant once the methods are unfolded:
    the log grows call by call, and each intermediate set of live widgets
    is included in a singleton. *)
Ltac widget_step Hlive :=
  repeat first
    [ apply never_two_snoc
    | assumption
    | rewrite !live_at_snoc; cbn [live_step]; rewrite Hlive; cbn [held];
      first [ apply held_at_most_one
            | match goal with
              | |- size ?X ≤ 1 =>
                  match X with
                  | context [{[?a]}] => apply (size_at_most_one _ a); set_solver
                  end
              | |- size ?X ≤ 1 => apply (size_at_most_one _ 0); set_solver
              | |- _ = _ => set_solver
              end ] ].

Lemma run_widget_ok w op : widget_ok w → widget_ok (run op w).
Proof.
  destruct w as [[v sm inwd hid d dd cs dpi] [sch mob td] vi pt pk np lg].
  unfold widget_ok. cbv [this datePickerInstance pickers log].
  intros (Hnever & Hlive & Hdom).
  destruct op; unfold_methods; repeat (case_cond; unfold_methods);
    try (split; [|split]; [widget_step Hlive..|]);
    try assumption.
  all: rewrite ?dom_insert_L, ?dom_delete_L, ?dom_alter_L, ?Hdom; cbn [held];
    set_solver.
Qed.

Lemma reachable_widget_ok (e : Env Date) ops :
  widget_ok (runAll ops (constructed e)).
Proof.
  apply (runAll_invariant widget_ok).
  - intros w op. apply run_widget_ok.
  - apply constructed_widget_ok.
Qed.

Lemma toggle_log w :
  let rebuilt :=
    log w ++ destroy_calls (datePickerInstance (this w))
          ++ [PickerCreated (nextPicker w) (orEmpty (date (this w)))
                            (if isMobile (env w) then 1 else 2) MDUndefined;
              DetectChanges] in
  log (run ChangeSchedulingMode w) = rebuilt
  ∧ log (run ChangeNonWorkingDays w) = rebuilt.
Proof.
  destruct w as [[v sm inwd hid d dd cs dpi] [sch mob td] vi pt pk np lg].
  destruct dpi; unfold_methods; repeat (case_cond; unfold_methods);
    cbv [destroy_calls]; split; by rewrite <- ?app_assoc.
Qed.

(** C6: at every moment of the life of a component at most one widget is
    alive, and the one alive is the one the component holds.  Every
    (re)initialization, whether by a delivered minimal date or by one of the
    two toggles, first calls [destroy()] on the instance it finds (once if
    there is one, and that one is the live widget) and only then constructs
    the new widget. *)
Theorem at_most_one_widget (e : Env Date) (ops : list (Op Date)) (md : MinDate Date) :
  let w := runAll ops (constructed e) in
  let created md :=
    PickerCreated (nextPicker w) (orEmpty (date (this w)))
                  (if isMobile (env w) then 1 else 2) md in
  never_two (log w)
  ∧ live_at (log w) = held (datePickerInstance (this w))
  ∧ dom (pickers w) = held (datePickerInstance (this w))
  ∧ log (initializeDatepicker md w).2 =
      log w ++ destroy_calls (datePickerInstance (this w)) ++ [created md]
  ∧ log (run ChangeSchedulingMode w) =
      log w ++ destroy_calls (datePickerInstance (this w))
            ++ [created MDUndefined; DetectChanges]
  ∧ log (run ChangeNonWorkingDays w) =
      log w ++ destroy_calls (datePickerInstance (this w))
            ++ [created MDUndefined; DetectChanges]
  ∧ never_two (log (run ChangeSchedulingMode w))
  ∧ never_two (log (run ChangeNonWorkingDays w))
  ∧ never_two (log (initializeDatepicker md w).2).
Proof.
  intros w created.
  destruct (reachable_widget_ok e ops) as (Hnever & Hlive & Hdom).
  destruct (toggle_log w) as [Hsm Hnwd].
  destruct (initializeDatepicker_spec w md) as (_ & _ & _ & Hinit & _).
  repeat split; try done.
  - by apply (run_widget_ok w ChangeSchedulingMode).
  - by apply (run_widget_ok w ChangeNonWorkingDays).
  - fold w in Hnever, Hlive. clearbody w. clear -Hnever Hlive.
    destruct w as [[v sm inwd hid d dd cs dpi] [sch mob td] vi pt pk np lg].
    cbv [this datePickerInstance log] in Hnever, Hlive.
    destruct dpi; unfold_methods; widget_step Hlive.
Qed.

(** * Further properties of the methods *)

(** ** The [value] input *)

Lemma run_forgetValue w op :
  forgetValue (run op w) = forgetValue (run op (forgetValue w)).
Proof.
  destruct w as [[v sm inwd hid d dd cs dpi] [sch mob td] vi pt pk np lg].
  destruct op; cbv [forgetValue]; unfold_methods;
    repeat (case_cond; unfold_methods); done.
Qed.

Lemma runAll_forgetValue ops w1 w2 :
  forgetValue w1 = forgetValue w2 →
  forgetValue (runAll ops w1) = forgetValue (runAll ops w2).
Proof.
  revert w1 w2. induction ops as [|op ops IH]; intros w1 w2 Hw; [done|].
  apply IH. by rewrite (run_forgetValue w1), (run_forgetValue w2), Hw.
Qed.

(** X1: the [value] input is dead: whatever string it is bound to, every
    run of the component makes the same outside calls, holds the same
    widgets and ends with the same local date. *)
Theorem value_input_never_used (ops : list (Op Date)) w v :
  let w1 := runAll ops (withThis (set_value v) w) in
  let w2 := runAll ops w in
  forgetValue w1 = forgetValue w2
  ∧ log w1 = log w2
  ∧ pickers w1 = pickers w2
  ∧ date (this w1) = date (this w2).
Proof.
  intros w1 w2.
  assert (forgetValue w1 = forgetValue w2) as Heq.
  { apply runAll_forgetValue. by destruct w as [[] ? ? ? ? ? ?]. }
  split; [done|].
  change (log (forgetValue w1) = log (forgetValue w2)
          ∧ pickers (forgetValue w1) = pickers (forgetValue w2)
          ∧ date (this (forgetValue w1)) = date (this (forgetValue w2))).
  by rewrite Heq.
Qed.

(** ** What a run emits *)

Lemma count_singleton p (e : Effect Date) : count p [e] = if p e then 1 else 0.
Proof. unfold count. rewrite filter_cons, filter_nil. by destruct (p e). Qed.

Lemma countOps_snoc p ops op :
  countOps p (ops ++ [op]) = countOps p ops + (if p op then 1 else 0).
Proof.
  unfold countOps. rewrite filter_app, length_app, filter_cons, filter_nil.
  by destruct (p op).
Qed.

Lemma run_counts w op :
  changeset (this w) = None →
  count is_SetValue (log (run op w)) = count is_SetValue (log w)
  ∧ count is_SavedOrCancelled (log (run op w))
    = count is_SavedOrCancelled (log w) + (if is_Cancel op then 1 else 0)
  ∧ count is_PreventDefault (log (run op w))
    = count is_PreventDefault (log w) + (if is_Save op then 1 else 0).
Proof.
  destruct w as [[v sm inwd hid d dd cs dpi] [sch mob td] vi pt pk np lg].
  cbv [this changeset]. intros ->.
  destruct op; cbn [is_Cancel is_Save]; unfold_methods;
    repeat (case_cond; unfold_methods);
    rewrite ?count_app, ?count_singleton;
    cbn [is_SetValue is_SavedOrCancelled is_PreventDefault];
    lia.
Qed.

(** X2: in every run of a component built by its constructor,
    [savedOrCancelled] is emitted once per [cancel()] and never by
    [save()]; [preventDefault] is called once per [save()]; and no
    [setValue] is ever made. *)
Theorem completion_only_by_cancel (e : Env Date) (ops : list (Op Date)) :
  let w := runAll ops (constructed e) in
  count is_SavedOrCancelled (log w) = countOps is_Cancel ops
  ∧ count is_PreventDefault (log w) = countOps is_Save ops
  ∧ count is_SetValue (log w) = 0.
Proof.
  induction ops as [|op ops IH] using rev_ind.
  - destruct e. done.
  - cbv zeta in *. rewrite runAll_app. cbn [runAll foldl].
    destruct (run_counts (runAll ops (constructed e)) op) as (Hv & Hs & Hp);
      [apply reachable_changeset_None|].
    destruct IH as (IHs & IHp & IHv).
    rewrite !countOps_snoc, Hv, Hs, Hp. lia.
Qed.

(** ** The two toggles *)

(** X3: the body of the [if] in [changeNonWorkingDays()] being commented
    out, the method does in every world exactly what
    [changeSchedulingMode()] does. *)
Theorem changeNonWorkingDays_is_changeSchedulingMode w :
  changeNonWorkingDays w = changeSchedulingMode w.
Proof.
  destruct w as [[v sm inwd hid d dd cs dpi] [sch mob td] vi pt pk np lg].
  unfold_methods; repeat (case_cond; unfold_methods); done.
Qed.

(** ** More on date synchronization *)

(** X4: [updateDate] does nothing at all, and throws nothing, when it is
    handed [null] or when the component holds no widget yet, valid date or
    not. *)
Theorem updateDate_without_widget val w :
  val = None ∨ datePickerInstance (this w) = None →
  updateDate val w = (Returned tt, w).
Proof.
  destruct w as [[v sm inwd hid d dd cs dpi] en vi pt pk np lg].
  cbv [this datePickerInstance]. intros [-> | ->]; [done|].
  unfold_methods; repeat (case_cond; unfold_methods); try done.
  all: match goal with
       | H : _ && bool_decide (is_Some None) = true |- _ =>
           apply andb_true_iff in H as [_ H];
           apply bool_decide_eq_true in H; by destruct H
       end.
Qed.

Lemma alter_pushed_twice (dates enforce : option Date) id (pk : gmap nat Picker) :
  let push := fun p : Picker =>
    mkPicker (pk_showMonths p) (pk_minimalDate p) (PushedDates dates enforce) in
  alter push id (alter push id pk) = alter push id pk.
Proof.
  intros push. apply map_eq. intros i. rewrite !lookup_alter.
  repeat case_decide; try done. by destruct (pk !! _).
Qed.

(** X5: whatever it is handed, [updateDate] returns normally and keeps
    its hands off everything but the dates of the held widget: no field of
    the component changes, no widget is built or destroyed, no timer is
    touched, and at most one outside call is made, a [setDates]. *)
Theorem updateDate_frame val w :
  let w' := (updateDate val w).2 in
  (updateDate val w).1 = Returned tt
  ∧ this w' = this w
  ∧ env w' = env w
  ∧ pendingTimer w' = pendingTimer w
  ∧ nextPicker w' = nextPicker w
  ∧ dom (pickers w') = dom (pickers w)
  ∧ ∃ delta, log w' = log w ++ delta
             ∧ length delta ≤ 1
             ∧ count is_SetDatesCalled delta = length delta.
Proof.
  destruct w as [[v sm inwd hid d dd cs dpi] en vi pt pk np lg].
  destruct val as [s|]; unfold_methods; repeat (case_cond; unfold_methods);
    repeat split; rewrite ?dom_alter_L; try done;
    first [ by eexists [_]
          | exists []; rewrite app_nil_r; split; [done|split; [simpl; lia|done]] ].
Qed.

(** X6: [updateDate] is idempotent: a second call with the same argument
    makes the same outside call as the first, with the same arguments, or
    none if the first made none, and leaves every widget as the first call
    left it. *)
Theorem updateDate_idempotent val w :
  let w' := (updateDate val w).2 in
  let w'' := (updateDate val w').2 in
  ∃ delta, log w' = log w ++ delta
           ∧ log w'' = log w' ++ delta
           ∧ pickers w'' = pickers w'.
Proof.
  destruct w as [[v sm inwd hid d dd cs dpi] en vi pt pk np lg].
  destruct val as [s|]; unfold_methods; repeat (case_cond; unfold_methods);
    try congruence;
    first [ eexists [_]; repeat split; apply alter_pushed_twice
          | exists []; by rewrite !app_nil_r ].
Qed.

(** X7: [updateDatesFromForm] overwrites the local date and the
    ignore-non-working-days toggle with the payload's values, leaves the
    other fields alone, and calls [setDates] once, with the parsed payload
    date both as the date to select and as the date to show. *)
Theorem updateDatesFromForm_overwrites_and_pushes w d b :
  let parsed := parseDate (ArgString d) in
  let w' := (updateDatesFromForm d b w).2 in
  (updateDatesFromForm d b w).1 = Returned tt
  ∧ this w' = set_ignoreNonWorkingDays b (set_date (Some d) (this w))
  ∧ log w' = log w ++ [SetDatesCalled parsed (datePickerInstance (this w)) parsed]
  ∧ dom (pickers w') = dom (pickers w)
  ∧ pendingTimer w' = pendingTimer w.
Proof.
  destruct w as [[v sm inwd hid dt dd cs dpi] en vi pt pk np lg].
  destruct dpi; unfold_methods; repeat split; by rewrite ?dom_alter_L.
Qed.

(** X8: every [setDates] call the component makes, by whatever
    operation, selects the parse of the local date as it is when the
    operation ends, in the widget the component then holds. *)
Theorem every_push_selects_local_date w op :
  ∃ delta, log (run op w) = log w ++ delta
           ∧ Forall (push_agrees (this (run op w))) delta.
Proof.
  destruct w as [[v sm inwd hid d dd cs dpi] [sch mob td] vi pt pk np lg].
  destruct op; unfold_methods; repeat (case_cond; unfold_methods);
    rewrite <- ?app_assoc; cbn [app];
    first [ eexists; split; [reflexivity|]
          | exists []; split; [by rewrite app_nil_r|] ];
    repeat constructor.
Qed.

(** ** More on save *)

(** X9: [save($event)] calls [preventDefault] first, and once, whether
    it then throws or not; it returns normally exactly when a changeset is
    there; and in both cases the local date, the toggles, the widgets and
    the debounce state are as before. *)
Theorem save_prevents_default_first w :
  let w' := (save w).2 in
  (∃ rest, log w' = log w ++ PreventDefault :: rest
           ∧ count is_PreventDefault rest = 0)
  ∧ ((save w).1 = Returned tt ↔ is_Some (changeset (this w)))
  ∧ date (this w') = date (this w)
  ∧ scheduleManually (this w') = scheduleManually (this w)
  ∧ ignoreNonWorkingDays (this w') = ignoreNonWorkingDays (this w)
  ∧ datePickerInstance (this w') = datePickerInstance (this w)
  ∧ debounceDelay (this w') = debounceDelay (this w)
  ∧ pickers w' = pickers w
  ∧ pendingTimer w' = pendingTimer w.
Proof.
  destruct w as [[v sm inwd hid d dd cs dpi] [sch mob td] vi pt pk np lg].
  destruct cs, sch; unfold_methods; rewrite <- ?app_assoc; cbn [app];
    (split; [by eexists|]); (split; [|done]);
    (split; [intros ?|intros [? ?]]; by eauto).
Qed.

(** X10: with a changeset in place, [save($event)] writes the two
    toggles, writes the mapped date only when the range is schedulable
    (the pending [date] edit is otherwise as it was), leaves every other
    pending edit untouched, and emits [savedOrCancelled] once. *)
Theorem save_touches_only_its_fields w cs key :
  changeset (this w) = Some cs →
  key ≠ "scheduleManually" → key ≠ "ignoreNonWorkingDays" → key ≠ "date" →
  let w' := (save w).2 in
  ∃ cs', changeset (this w') = Some cs'
    ∧ cs' !! key = cs !! key
    ∧ cs' !! "scheduleManually" = Some (VBool (scheduleManually (this w)))
    ∧ cs' !! "ignoreNonWorkingDays" = Some (VBool (ignoreNonWorkingDays (this w)))
    ∧ cs' !! "date" = (if isSchedulable (env w)
                       then Some (VDate (mappedDate (date (this w))))
                       else cs !! "date")
    ∧ count is_SavedOrCancelled (log w') = S (count is_SavedOrCancelled (log w)).
Proof.
  intros Hcs Hk1 Hk2 Hk3 w'.
  destruct (save_intended_behaviour w cs Hcs) as (_ & Hcs' & Hlog).
  fold w' in Hcs', Hlog. eexists. split; [exact Hcs'|].
  rewrite Hlog, !count_app.
  destruct (isSchedulable (env w));
    rewrite ?count_singleton; cbn [is_SavedOrCancelled];
    repeat split;
    rewrite ?(lookup_insert_ne _ _ key) by done;
    rewrite ?lookup_insert_eq; try done;
    rewrite ?lookup_insert_ne by done; rewrite ?lookup_insert_eq; try done.
  all: unfold count; simpl; lia.
Qed.

(** ** More on the widget *)

Lemma run_device_ok b w op :
  keeps_device b op →
  isMobile (env w) = b ∧ Forall (device_ok b) (log w) →
  isMobile (env (run op w)) = b ∧ Forall (device_ok b) (log (run op w)).
Proof.
  destruct w as [[v sm inwd hid d dd cs dpi] [sch mob td] vi pt pk np lg].
  cbv [env isMobile log]. intros Hop [<- Hlog].
  destruct op; cbv [keeps_device isMobile] in Hop; unfold_methods;
    repeat (case_cond; unfold_methods);
    (split; [done|]); rewrite ?Forall_app; repeat split; try done;
    repeat constructor; try done.
Qed.

(** X11: as long as the component stays on the same kind of device, every
    widget it ever builds shows one month on a mobile device and two
    otherwise, and on a mobile device the modal is never repositioned. *)
Theorem device_decides_months_and_position (b : bool) (e : Env Date)
    (ops : list (Op Date)) :
  isMobile e = b →
  Forall (keeps_device b) ops →
  Forall (device_ok b) (log (runAll ops (constructed e))).
Proof.
  intros He Hops.
  enough (isMobile (env (runAll ops (constructed e))) = b
          ∧ Forall (device_ok b) (log (runAll ops (constructed e)))) as [_ H];
    [done|].
  revert Hops. induction ops as [|op ops IH] using rev_ind; intros Hops.
  - destruct e as [sch mob td]. cbv [isMobile] in He. subst b.
    split; [done|]. unfold_methods. cbn [app]. repeat constructor.
  - apply Forall_app in Hops as [Hops Hop].
    rewrite runAll_app. cbn [runAll foldl]. apply run_device_ok; [|by apply IH].
    by inversion Hop.
Qed.

(** X12: the [onDayCreate] callback reads the ignore-non-working-days
    toggle when it runs, not when the widget was built: once the toggle is
    set on the component, a day cell of the widget it already holds is
    created against the new value, with the floor the widget was built
    with. *)
Theorem onDayCreate_reads_toggle_when_called w id p b dayElem :
  datePickerInstance (this w) = Some id →
  pickers w !! id = Some p →
  log (run (PickerDayCreate id dayElem) (run (UserSetsIgnoreNonWorkingDays b) w)) =
  log w ++ [DayCreated dayElem b (Some (isNonWorkingDay (dateObj dayElem)))
              (pk_minimalDate p) (isDayDisabled dayElem (pk_minimalDate p))].
Proof.
  destruct w as [[v sm inwd hid d dd cs dpi] en vi pt pk np lg].
  cbv [this datePickerInstance pickers]. intros -> Hp.
  unfold_methods. rewrite Hp. by unfold_methods.
Qed.

(** X13: a toggle after [setToday()] rebuilds the widget from the date
    [setToday()] stored: the widget then held starts from today's formatted
    date, nothing has been pushed into it, and the local date is still
    today's. *)
Theorem toggle_after_setToday_starts_from_today w :
  let t := formattedISODate (parseDate (ArgDate (now (env w)))) in
  let w' := run ChangeSchedulingMode (run SetToday w) in
  ∃ id, datePickerInstance (this w') = Some id
        ∧ pk_dates <$> pickers w' !! id = Some (InitialDate t)
        ∧ selectedDate w' id = None
        ∧ date (this w') = Some t.
Proof.
  destruct w as [[v sm inwd hid d dd cs dpi] [sch mob td] vi pt pk np lg].
  exists np. unfold selectedDate.
  destruct dpi; unfold_methods; rewrite !lookup_insert_eq; done.
Qed.

(** ** More on the debounce pipeline *)

Lemma elapsed_delays_armed n d :
  elapsed_delays (replicate n (@TimerArmed Date d)) = [].
Proof. induction n as [|n IH]; [done|]. exact IH. Qed.

Lemma burst_of_signals n w :
  viewInitialized w = true →
  runAll (replicate (S n) DateChangedManually) w =
  mkWorld (this w) (env w) true (Some (debounceDelay (this w)))
          (pickers w) (nextPicker w)
          (log w ++ replicate (S n) (TimerArmed (debounceDelay (this w)))).
Proof.
  revert w. induction n as [|n IH]; intros w Hvi.
  - destruct w as [f en vi pt pk np lg]. cbv [viewInitialized] in Hvi. subst vi.
    by unfold_methods.
  - change (runAll (replicate (S (S n)) DateChangedManually) w)
      with (runAll (replicate (S n) DateChangedManually) (run DateChangedManually w)).
    destruct w as [f en vi pt pk np lg]. cbv [viewInitialized] in Hvi. subst vi.
    rewrite IH by done. unfold_methods.
    by rewrite <- app_assoc.
Qed.

(** X14: a burst of manual-change signals on an initialized view is
    coalesced: however many signals precede it, the elapse of the timer
    runs the handler once, with the delay the component had during the
    burst; afterwards no timer is pending and the delay is 800. *)
Theorem burst_is_coalesced n w :
  viewInitialized w = true →
  let w' := runAll (replicate (S n) DateChangedManually ++ [DebounceTimerElapses]) w in
  elapsed_delays (log w') = elapsed_delays (log w) ++ [debounceDelay (this w)]
  ∧ pendingTimer w' = None
  ∧ debounceDelay (this w') = 800
  ∧ date (this w') = date (this w).
Proof.
  intros Hvi w'. subst w'. rewrite runAll_app, burst_of_signals by done.
  destruct w as [[v sm inwd hid d dd cs dpi] en vi pt pk np lg].
  cbn [runAll foldl]. unfold_methods. repeat (case_cond; unfold_methods);
    rewrite !elapsed_delays_app, ?elapsed_delays_armed; cbn [elapsed_delays];
    rewrite ?app_nil_r; done.
Qed.

End Properties.

(** * The component on examples *)

(** With a changeset in place [save] writes the three fields and emits
    once: the hypothesis of [save_intended_behaviour] can be met, though not
    by the component on its own. *)
Example save_with_changeset_example :
  (save Iso.readyWithChangeset).1 = Returned tt
  ∧ changeset (this (save Iso.readyWithChangeset).2) =
      Some (<["date" := VDate (Some "2022-01-01")]>
              (<["ignoreNonWorkingDays" := VBool false]>
                 (<["scheduleManually" := VBool false]> ∅)))
  ∧ count is_SavedOrCancelled (log (save Iso.readyWithChangeset).2) = 1.
Proof.
  destruct (save_intended_behaviour Iso.readyWithChangeset ∅ eq_refl) as (Hr & Hcs & Hlog).
  split; [exact Hr|]. split; [exact Hcs|]. by vm_compute.
Qed.

(** C4 as stated fails: [updateDate] is handed the valid 10-character
    string 2023-05-05 while the local date is 2022-01-01.  The widget's
    selected date is then the parsed local date, not the parsed argument,
    and the local date field is not the argument. *)
Lemma updateDate_other_string_counterexample :
  let v := "2023-05-05" in
  let w' := (updateDate (Some v) Iso.ready).2 in
  validDate v = true
  ∧ 8 ≤ String.length v
  ∧ selectedDate w' 0 = Some (Some "2022-01-01")
  ∧ date (this w') = Some "2022-01-01"
  ∧ ¬ (selectedDate w' 0 = Some (parseDate (ArgString v))
       ∧ date (this w') = Some v).
Proof.
  split; [reflexivity|]. split; [simpl; lia|].
  split; [by vm_compute|]. split; [by vm_compute|].
  intros [_ Hdate]. vm_compute in Hdate. discriminate Hdate.
Qed.

(** The amended C4 at work, on the input of the counterexample: the
    widget selects the local date 2022-01-01, is made to show 2023-05-05,
    and the local date stays 2022-01-01. *)
Lemma updateDate_selects_local_date_witness :
  let v := "2023-05-05" in
  let w' := (updateDate (Some v) Iso.ready).2 in
  (8 ≤ String.length v ∧ validDate v = true)
  ∧ (updateDate (Some v) Iso.ready).1 = Returned tt
  ∧ date (this w') = Some "2022-01-01"
  ∧ log w' = log Iso.ready
             ++ [SetDatesCalled (Some "2022-01-01") (Some 0) (Some "2023-05-05")]
  ∧ selectedDate w' 0 = Some (Some "2022-01-01").
Proof.
  intros v w'.
  split; [split; [simpl; lia|reflexivity]|].
  destruct (updateDate_selects_local_date Iso.ready v)
    as (Hr & Hdate & Hlog & Hsel & _); [simpl; lia|reflexivity|].
  split; [exact Hr|]. split; [exact Hdate|]. split; [exact Hlog|exact Hsel].
Defined.

(** C5 at work: the unfinished input 2022-07 changes nothing. *)
Lemma updateDate_ignores_short_or_invalid_witness :
  (0 < String.length "2022-07" < 8 ∨ validDate "2022-07" = false)
  ∧ updateDate (Some "2022-07") Iso.ready = (Returned tt, Iso.ready).
Proof.
  split.
  - left. simpl. lia.
  - apply updateDate_ignores_short_or_invalid. left. simpl. lia.
Defined.

(** A string of sufficient length that is no date is ignored as well. *)
Example updateDate_invalid_example :
  updateDate (Some "next week") Iso.ready = (Returned tt, Iso.ready).
Proof. by vm_compute. Qed.

(** The floor delivered by the relations service is gone after a toggle:
    the same day cell is created against 2022-02-01 before
    [changeSchedulingMode()] and against [undefined] after it. *)
Example floor_lost_on_toggle_example :
  let day := mkDayElement "2022-01-15" in
  let w := run (MinimalDateEmitted (Some "2022-02-01")) Iso.ready in
  let w' := run ChangeSchedulingMode w in
  last (log (run (PickerDayCreate 1 day) w))
    = Some (DayCreated day false (Some false) (MDDate "2022-02-01") false)
  ∧ last (log (run (PickerDayCreate 2 day) w'))
    = Some (DayCreated day false (Some false) MDUndefined false).
Proof. by vm_compute. Qed.

(** The debounce pipeline on a run: two bursts of edits give two
    reconciliations, after 0 ms and after 800 ms. *)
Example debounce_example :
  elapsed_delays (log (runAll [DateChangedManually; DebounceTimerElapses;
                               DateChangedManually; DateChangedManually;
                               DebounceTimerElapses] Iso.ready))
  = [0; 800].
Proof. by vm_compute. Qed.

(** * The further properties on examples *)

(** X4 at work: a component without a widget ignores a valid date. *)
Lemma updateDate_without_widget_witness :
  datePickerInstance (this (constructed Iso.env0)) = None
  ∧ updateDate (Some "2022-01-01") (constructed Iso.env0)
    = (Returned tt, constructed Iso.env0).
Proof.
  split; [reflexivity|].
  apply updateDate_without_widget. right. reflexivity.
Defined.

(** X10 at work: a pending edit of the subject survives [save]. *)
Lemma save_touches_only_its_fields_witness :
  let w := withThis (mutate_changeset (Some {["subject" := VBool true]})) Iso.ready in
  changeset (this w) = Some {["subject" := VBool true]}
  ∧ ∃ cs', changeset (this (save w).2) = Some cs'
           ∧ cs' !! "subject" = Some (VBool true)
           ∧ cs' !! "date" = Some (VDate (Some "2022-01-01")).
Proof.
  intros w. split; [reflexivity|].
  destruct (save_touches_only_its_fields w {["subject" := VBool true]} "subject")
    as (cs' & Hcs & Hkey & _ & _ & Hdate & _);
    [reflexivity|discriminate|discriminate|discriminate|].
  exists cs'. split; [exact Hcs|]. split; [exact Hkey|exact Hdate].
Defined.

(** X11 at work, on a desktop. *)
Lemma device_decides_months_and_position_witness :
  let ops := [NgAfterViewInit; MinimalDateEmitted None; PickerReady 0;
              ChangeSchedulingMode; EnvChanges (mkEnv false false "2023-03-16");
              ChangeNonWorkingDays] in
  isMobile Iso.env0 = false
  ∧ Forall (keeps_device false) ops
  ∧ Forall (device_ok false) (log (runAll ops (constructed Iso.env0))).
Proof.
  intros ops.
  assert (Forall (keeps_device (Date := string) false) ops) as Hops
    by (repeat constructor).
  split; [reflexivity|]. split; [exact Hops|].
  apply device_decides_months_and_position; [reflexivity|exact Hops].
Defined.

(** X12 at work: the toggle is set, the widget is not rebuilt, and the next
    day cell is created against the new value. *)
Lemma onDayCreate_reads_toggle_when_called_witness :
  let day := mkDayElement "2022-01-15" in
  datePickerInstance (this Iso.ready) = Some 0
  ∧ log (run (PickerDayCreate 0 day) (run (UserSetsIgnoreNonWorkingDays true) Iso.ready))
    = log Iso.ready ++ [DayCreated day true (Some false) MDNull false].
Proof.
  intros day. split; [reflexivity|].
  exact (onDayCreate_reads_toggle_when_called Iso.ready 0
           (mkPicker 2 MDNull (InitialDate "")) true day eq_refl eq_refl).
Defined.

(** X14 at work: three signals, one reconciliation. *)
Lemma burst_is_coalesced_witness :
  let w' := runAll (replicate 3 DateChangedManually ++ [DebounceTimerElapses])
                   Iso.ready in
  viewInitialized Iso.ready = true
  ∧ elapsed_delays (log w') = [0]
  ∧ debounceDelay (this w') = 800.
Proof.
  intros w'. split; [reflexivity|].
  destruct (burst_is_coalesced 2 Iso.ready) as (He & _ & Hd & _); [reflexivity|].
  split; [exact He|exact Hd].
Defined.

(** X15 at work: the floor 2022-02-01 is delivered to an initialized
    view. *)
Lemma minimalDate_dayCreate_floor_witness :
  viewInitialized Iso.ready = true
  ∧ dayCreate_floor (run (MinimalDateEmitted (Some "2022-02-01")) Iso.ready)
                    (MDDate "2022-02-01").
Proof.
  split; [reflexivity|].
  apply (minimalDate_dayCreate_floor Iso.ready (Some "2022-02-01")). reflexivity.
Defined.

(** X16 at work: the user types 2022-07-19. *)
Lemma manual_edit_reaches_widget_witness :
  let v := "2022-07-19" in
  let w' := runAll [UserSetsDate (Some v); DateChangedManually; DebounceTimerElapses]
                   Iso.ready in
  (viewInitialized Iso.ready = true ∧ 8 ≤ String.length v ∧ validDate v = true)
  ∧ selectedDate w' 0 = Some (Some v)
  ∧ date (this w') = Some v.
Proof.
  intros v w'.
  split; [split; [reflexivity|split; [simpl; lia|reflexivity]]|].
  destruct (manual_edit_reaches_widget Iso.ready v 0
              (mkPicker 2 MDNull (InitialDate "")))
    as [Hsel Hdate];
    [reflexivity|simpl; lia|reflexivity|reflexivity|reflexivity|].
  split; [exact Hsel|exact Hdate].
Defined.
